(** * Kenya AI-CRM backend: lead intake, proposal drafting, tenant listing

    A shallow embedding of [main.py] and [schemas.py].

    - Python numbers are modelled as they are at run time: an [int] is a [Z],
      a [float] is an IEEE-754 binary64 value ([spec_float] with precision 53
      and maximal exponent 1024), with the interpreter's mixed arithmetic,
      truthiness and [round(x, 2)].
    - A Python [dict] / JSON object is an insertion-ordered association list
      with unique keys; a document of the store is such a dict.
    - The handlers are functions of the store handle ([db], [None] when the
      connection was never established) and of the request; a handler that
      writes returns the new handle.  An HTTP error is a value of
      [http_error].
    - The module [database] ([db], [create_document], [get_documents]) is
      not part of the sources at hand; it is modelled from the system
      description, see the section [Backend].  What the description leaves
      open (the length at which error messages are cut, the text of the
      "unavailable" error) is a variable of that section, and so is the
      schema generator of the validation library. *)

From Stdlib Require Import ZArith Bool List.
From Stdlib Require Import Floats.SpecFloat.
From stdpp Require Import base strings list gmap pretty.

Local Open Scope Z_scope.

(* ===================================================================== *)
(** ** Python floats (IEEE-754 binary64) *)
(* ===================================================================== *)

Module PyFloat.

Definition prec : Z := 53.
Definition emax : Z := 1024.

Definition fmul : spec_float -> spec_float -> spec_float := SFmul prec emax.
Definition fadd : spec_float -> spec_float -> spec_float := SFadd prec emax.
Definition fdiv : spec_float -> spec_float -> spec_float := SFdiv prec emax.

(** [float(z)] for an [int]: the nearest binary64 value, ties to even.
    (CPython raises [OverflowError] beyond the binary64 range, where this
    function answers infinity; the handlers only ever convert [0] and
    [1].) *)
Definition of_Z (z : Z) : spec_float := binary_normalize prec emax z 0 false.

Definition pos_zero : spec_float := S754_zero false.

(** The literal [0.16]: the binary64 value nearest to 16/100,
    [0x1.47ae147ae147bp-3]. *)
Definition lit_0_16 : spec_float := S754_finite false 5764607523034235 (-55).

(** [x == y], [x < y] on floats. *)
Definition eqb : spec_float -> spec_float -> bool := SFeqb.
Definition ltb : spec_float -> spec_float -> bool := SFltb.

(** [bool(x)]: a float is falsy exactly when it compares equal to zero
    (so both [0.0] and [-0.0] are falsy and NaN is truthy). *)
Definition truthy (x : spec_float) : bool := negb (eqb x pos_zero).

(** [num / den] rounded to the nearest integer, ties to the even one
    ([0 <= num], [0 < den]). *)
Definition div_half_even (num den : Z) : Z :=
  let q := num / den in
  let r := num mod den in
  match 2 * r ?= den with
  | Lt => q
  | Gt => q + 1
  | Eq => if Z.even q then q else q + 1
  end.

(** The binary64 value nearest (ties to even) to [(-1)^s * n / d] for
    integers [0 <= n], [0 < d]: the quotient is computed with enough bits
    and its remainder kept as a rounding location, as in a correctly
    rounded division. *)
Definition nearest_quotient (s : bool) (n d : Z) : spec_float :=
  match n with
  | Z0 => S754_zero s
  | _ =>
      let '(q, e, l) := SFdiv_core_binary prec emax n 0 d 0 in
      binary_round_aux prec emax s q e l
  end.

(** [round(x, 2)] on a float, as CPython computes it
    ([float.__round__] with [ndigits = 2]): NaN and the infinities round to
    themselves; a finite [x] is converted to the decimal with two digits
    after the point that is nearest to its exact value (ties to even), and
    that decimal is converted back to the nearest binary64 value.  The
    sign of [x] is kept, also on a zero result.  A finite float with a
    non-negative exponent is an integer and rounds to itself. *)
Definition round2 (x : spec_float) : spec_float :=
  match x with
  | S754_finite s m e =>
      if 0 <=? e then x
      else nearest_quotient s (div_half_even (100 * Zpos m) (2 ^ (- e))) 100
  | _ => x
  end.

End PyFloat.

(* ===================================================================== *)
(** ** Python numbers: [int] and [float] with mixed arithmetic *)
(* ===================================================================== *)

Inductive pynum : Type :=
  | PInt (z : Z)
  | PFloat (f : spec_float).

Module PyNum.

Definition to_float (n : pynum) : spec_float :=
  match n with
  | PInt z => PyFloat.of_Z z
  | PFloat f => f
  end.

(** [bool(n)] *)
Definition truthy (n : pynum) : bool :=
  match n with
  | PInt z => negb (z =? 0)
  | PFloat f => PyFloat.truthy f
  end.

(** [a or b]: [a] when it is truthy, else [b]. *)
Definition or (a b : pynum) : pynum := if truthy a then a else b.

(** [a * b]: exact on two ints, binary64 otherwise. *)
Definition mul (a b : pynum) : pynum :=
  match a, b with
  | PInt x, PInt y => PInt (x * y)
  | _, _ => PFloat (PyFloat.fmul (to_float a) (to_float b))
  end.

(** [a + b] *)
Definition add (a b : pynum) : pynum :=
  match a, b with
  | PInt x, PInt y => PInt (x + y)
  | _, _ => PFloat (PyFloat.fadd (to_float a) (to_float b))
  end.

(** [sum(xs)]: the items are added from left to right, starting from the
    int [0].  (Recent CPython versions carry a compensation term along a
    sum of floats; the term stays zero as long as every partial sum is
    exact, which is the case in each concrete total computed below.) *)
Definition sum (xs : list pynum) : pynum := fold_left add xs (PInt 0).

(** [round(n, 2)]: an int is returned unchanged. *)
Definition round2 (n : pynum) : pynum :=
  match n with
  | PInt z => PInt z
  | PFloat f => PFloat (PyFloat.round2 f)
  end.

(** [a == b] and [a < b] (numeric comparison across int and float; the
    ints met here are small enough to convert exactly). *)
Definition eqb (a b : pynum) : bool :=
  match a, b with
  | PInt x, PInt y => x =? y
  | _, _ => PyFloat.eqb (to_float a) (to_float b)
  end.

Definition ltb (a b : pynum) : bool :=
  match a, b with
  | PInt x, PInt y => x <? y
  | _, _ => PyFloat.ltb (to_float a) (to_float b)
  end.

End PyNum.

(* ===================================================================== *)
(** ** JSON-like values and Python dicts *)
(* ===================================================================== *)

#[warnings="-register-all"]
Inductive value : Type :=
  | VNone
  | VBool (b : bool)
  | VNum (n : pynum)
  | VStr (s : string)
  | VList (l : list value)
  | VDict (d : list (string * value)).

(** A Python [dict] with string keys: an association list in insertion
    order, read at the first binding of a key. *)
Abbreviation dict := (list (string * value)).

(** Python either returns a value or raises. *)
Inductive outcome (E A : Type) : Type :=
  | Return (a : A)
  | Raise (e : E).
Arguments Return {E A} a.
Arguments Raise {E A} e.

Module Dict.

(** [d.get(k)] *)
Fixpoint get (k : string) (d : dict) : option value :=
  match d with
  | [] => None
  | (k', v) :: d' => if String.eqb k k' then Some v else get k d'
  end.

(** [d[k] = v]: an existing key keeps its position, a new key is added
    at the end. *)
Fixpoint set (k : string) (v : value) (d : dict) : dict :=
  match d with
  | [] => [(k, v)]
  | (k', v') :: d' =>
      if String.eqb k k' then (k, v) :: d' else (k', v') :: set k v d'
  end.

(** [d.update(other)] *)
Definition update (d other : dict) : dict :=
  fold_left (fun acc kv => set (fst kv) (snd kv) acc) other d.

Definition keys (d : dict) : list string := map fst d.

End Dict.

(** [s[:n]] on a string (one [ascii] stands for one character). *)
Fixpoint str_slice_to (n : nat) (s : string) : string :=
  match n, s with
  | S n', String c s' => String c (str_slice_to n' s')
  | _, _ => EmptyString
  end.

(** Equality of values as a query filter compares them: numbers
    numerically, everything else structurally. *)
Fixpoint value_eqb (a b : value) {struct a} : bool :=
  match a, b with
  | VNone, VNone => true
  | VBool x, VBool y => Bool.eqb x y
  | VNum x, VNum y => PyNum.eqb x y
  | VStr x, VStr y => String.eqb x y
  | VList xs, VList ys =>
      (fix go (xs ys : list value) {struct xs} : bool :=
         match xs, ys with
         | [], [] => true
         | x :: xs', y :: ys' => value_eqb x y && go xs' ys'
         | _, _ => false
         end) xs ys
  | VDict xs, VDict ys =>
      (fix go (xs ys : list (string * value)) {struct xs} : bool :=
         match xs, ys with
         | [], [] => true
         | (k, x) :: xs', (k', y) :: ys' =>
             String.eqb k k' && value_eqb x y && go xs' ys'
         | _, _ => false
         end) xs ys
  | _, _ => false
  end.

Definition opt_str (o : option string) : value :=
  match o with
  | Some s => VStr s
  | None => VNone
  end.

(* ===================================================================== *)
(** ** schemas.py *)
(* ===================================================================== *)

(** Membership in a [Literal[...]] set of strings. *)
Definition in_literal (allowed : list string) (s : string) : bool :=
  existsb (String.eqb s) allowed.

Module Lead.

(** [source: Literal["whatsapp", "gmail", "web", "social", "manual"]] *)
Definition source_literal : list string :=
  ["whatsapp"; "gmail"; "web"; "social"; "manual"]%string.

(** [status: Literal["new", "qualified", "proposal", "won", "lost"]] *)
Definition status_literal : list string :=
  ["new"; "qualified"; "proposal"; "won"; "lost"]%string.

End Lead.

Module ProposalItem.

Record t : Type := {
  catalog_item_id : option string;
  title : string;
  description : option string;
  quantity : pynum;
  unit_price_kes : pynum
}.

(** Validation of an item: [quantity: float = 1] and
    [unit_price_kes: float = 0] carry no bound, so every number is
    accepted; a supplied number is converted to a float, a missing field
    takes the default written in the class (the ints [1] and [0], which
    are not converted). *)
Definition new (catalog_item_id : option string) (title : string)
    (description : option string)
    (quantity unit_price_kes : option pynum) : t :=
  {| catalog_item_id := catalog_item_id;
     title := title;
     description := description;
     quantity :=
       match quantity with
       | Some n => PFloat (PyNum.to_float n)
       | None => PInt 1
       end;
     unit_price_kes :=
       match unit_price_kes with
       | Some n => PFloat (PyNum.to_float n)
       | None => PInt 0
       end |}.

Definition model_dump (it : t) : dict :=
  [("catalog_item_id", opt_str (catalog_item_id it));
   ("title", VStr (title it));
   ("description", opt_str (description it));
   ("quantity", VNum (quantity it));
   ("unit_price_kes", VNum (unit_price_kes it))]%string.

End ProposalItem.

Module Proposal.

Definition status_literal : list string :=
  ["draft"; "approved"; "sent"; "accepted"; "rejected"]%string.
Definition ai_status_literal : list string :=
  ["none"; "pending"; "completed"; "failed"]%string.
Definition delivery_channel_literal : list string :=
  ["whatsapp"; "gmail"; "pdf"]%string.

Record t : Type := {
  tenant_id : string;
  lead_id : string;
  items : list ProposalItem.t;
  subtotal_kes : spec_float;
  tax_kes : spec_float;
  total_kes : spec_float;
  status : string;
  ai_status : string;
  delivery_channels : list string
}.

(** [Proposal(...)]: the three amounts are float fields (a number is
    converted), the status fields and the channels must belong to their
    literal sets; [None] stands for a [ValidationError]. *)
Definition new (tenant_id lead_id : string) (items : list ProposalItem.t)
    (subtotal_kes tax_kes total_kes : pynum)
    (status ai_status : string) (delivery_channels : list string)
    : option t :=
  if in_literal status_literal status
     && in_literal ai_status_literal ai_status
     && forallb (in_literal delivery_channel_literal) delivery_channels
  then Some {| tenant_id := tenant_id;
               lead_id := lead_id;
               items := items;
               subtotal_kes := PyNum.to_float subtotal_kes;
               tax_kes := PyNum.to_float tax_kes;
               total_kes := PyNum.to_float total_kes;
               status := status;
               ai_status := ai_status;
               delivery_channels := delivery_channels |}
  else None.

Definition model_dump (p : t) : dict :=
  [("tenant_id", VStr (tenant_id p));
   ("lead_id", VStr (lead_id p));
   ("items", VList (map (fun it => VDict (ProposalItem.model_dump it)) (items p)));
   ("subtotal_kes", VNum (PFloat (subtotal_kes p)));
   ("tax_kes", VNum (PFloat (tax_kes p)));
   ("total_kes", VNum (PFloat (total_kes p)));
   ("status", VStr (status p));
   ("ai_status", VStr (ai_status p));
   ("delivery_channels", VList (map VStr (delivery_channels p)))]%string.

End Proposal.

(** The classes exported through [SCHEMA_MODELS]. *)
Module Model.
Inductive t : Type :=
  | Tenant | BillingRecord | ModuleSubscription | UserAccount | Lead
  | Message | CatalogItem | Proposal | Payment | AIJob | EventLog.
End Model.

Definition SCHEMA_MODELS : list (string * Model.t) :=
  [("tenant", Model.Tenant);
   ("billingrecord", Model.BillingRecord);
   ("modulesubscription", Model.ModuleSubscription);
   ("useraccount", Model.UserAccount);
   ("lead", Model.Lead);
   ("message", Model.Message);
   ("catalogitem", Model.CatalogItem);
   ("proposal", Model.Proposal);
   ("payment", Model.Payment);
   ("aijob", Model.AIJob);
   ("eventlog", Model.EventLog)]%string.

(* ===================================================================== *)
(** ** main.py: request models *)
(* ===================================================================== *)

Inductive http_error : Type :=
  | HTTPException (status_code : Z) (detail : string)
  (** the framework's answer (HTTP 422) to a body that fails validation;
      it lists the offending fields *)
  | RequestValidationError (fields : list string)
  (** an exception that no handler catches (HTTP 500 from the framework) *)
  | InternalServerError.

Module LeadIn.

Record t : Type := {
  tenant_id : string;
  source : string;
  name : option string;
  phone : option string;
  email : option string;
  company : option string
}.

Definition field_names : list string :=
  ["tenant_id"; "source"; "name"; "phone"; "email"; "company"]%string.

(** A field declared [str]: required, and only a string is accepted. *)
Definition required_str (k : string) (d : dict) : option string :=
  match Dict.get k d with
  | Some (VStr s) => Some s
  | _ => None
  end.

(** A field declared [str | None = None]: absent or [null] gives [None],
    a string gives itself, anything else is an error (outer [None]). *)
Definition optional_str (k : string) (d : dict) : option (option string) :=
  match Dict.get k d with
  | None => Some None
  | Some VNone => Some None
  | Some (VStr s) => Some (Some s)
  | Some _ => None
  end.

Definition invalid_fields (d : dict) : list string :=
  List.filter
    (fun k =>
       if String.eqb k "tenant_id" || String.eqb k "source"
       then match required_str k d with Some _ => false | None => true end
       else match optional_str k d with Some _ => false | None => true end)
    field_names.

(** Validation of a request body against [LeadIn].  Only the six declared
    fields are read: the model does not forbid extra keys, so any other
    key of the body is dropped. *)
Definition validate (body : value) : outcome http_error t :=
  match body with
  | VDict d =>
      match required_str "tenant_id" d, required_str "source" d,
            optional_str "name" d, optional_str "phone" d,
            optional_str "email" d, optional_str "company" d with
      | Some t, Some s, Some n, Some p, Some e, Some c =>
          Return {| tenant_id := t; source := s; name := n;
                    phone := p; email := e; company := c |}
      | _, _, _, _, _, _ => Raise (RequestValidationError (invalid_fields d))
      end
  | _ => Raise (RequestValidationError [])
  end.

Definition model_dump (p : t) : dict :=
  [("tenant_id", VStr (tenant_id p));
   ("source", VStr (source p));
   ("name", opt_str (name p));
   ("phone", opt_str (phone p));
   ("email", opt_str (email p));
   ("company", opt_str (company p))]%string.

End LeadIn.

Module ProposalDraftIn.

Record t : Type := {
  tenant_id : string;
  lead_id : string;
  items : list ProposalItem.t
}.

End ProposalDraftIn.

(* ===================================================================== *)
(** ** The document store and the handlers of main.py *)
(* ===================================================================== *)

(** Modelled from the spec: the backing document database behind the
    handle [db] of the absent module [database]: one list of documents per
    collection name, the failure (if any) that the engine answers to the
    next operation, and the counter from which identifiers are generated. *)
Record Store : Type := {
  collections : gmap string (list dict);
  fault : option string;
  next_id : nat
}.

(** Modelled from the spec: the errors of the store adapter
    ([StoreUnavailable], [StoreReadError] / [StoreWriteError]). *)
Inductive StoreError : Type :=
  | StoreUnavailable
  | StoreReadError (msg : string)
  | StoreWriteError (msg : string).

(** [db.list_collection_names()] of the database driver: the names of the
    collections, or the engine's failure. *)
Definition list_collection_names (d : Store) : outcome string (list string) :=
  match fault d with
  | Some m => Raise m
  | None => Return (map fst (map_to_list (collections d)))
  end.

(** [os.getenv(k)] tested for truth: unset and empty are both falsy. *)
Definition env_set (environ : string -> option string) (k : string) : bool :=
  match environ k with
  | Some (String _ _) => true
  | _ => false
  end.

(** The documents of a collection (none when it was never written). *)
Definition collection (d : Store) (collection_name : string) : list dict :=
  default [] (collections d !! collection_name).

(** Does a document satisfy a query filter: every key of the filter is
    bound in the document to an equal value. *)
Definition doc_matches (filter_dict doc : dict) : bool :=
  forallb
    (fun kv =>
       match Dict.get (fst kv) doc with
       | Some v => value_eqb (snd kv) v
       | None => false
       end)
    filter_dict.

Section Backend.

(** Modelled from the spec: the length to which the store adapter cuts
    the message of an underlying failure ("propagates underlying message,
    truncated for safety"); the length itself is not given. *)
Variable msg_limit : nat.

(** Modelled from the spec: the message of the [StoreUnavailable] error
    that the adapter raises when the backing connection was never
    established; its text is not given. *)
Variable unavailable_msg : string.

(** [model.model_json_schema()] of the validation library: the schema
    descriptor of a class, or an exception. *)
Variable model_json_schema : Model.t -> outcome string value.

(** [str(e)] *)
Definition str (e : StoreError) : string :=
  match e with
  | StoreUnavailable => unavailable_msg
  | StoreReadError m => m
  | StoreWriteError m => m
  end.

(** Modelled from the spec: [create_document] of the absent module
    [database], the adapter's [insert(collection_name, record) ->
    generated_id].  It fails with [StoreUnavailable] if the backing
    connection was never established and with [StoreWriteError] on a
    write-time failure, carrying the underlying message truncated; else
    the record is persisted with a store-generated id field and the new
    identifier is returned. *)
Definition create_document (db : option Store) (collection_name : string)
    (data : dict) : outcome StoreError (string * Store) :=
  match db with
  | None => Raise StoreUnavailable
  | Some d =>
      match fault d with
      | Some m => Raise (StoreWriteError (str_slice_to msg_limit m))
      | None =>
          let inserted_id : string := pretty (next_id d) in
          let doc := Dict.set "_id" (VStr inserted_id) data in
          Return
            (inserted_id,
             {| collections :=
                  <[collection_name := collection d collection_name ++ [doc]]>
                    (collections d);
                fault := None;
                next_id := S (next_id d) |})
      end
  end.

(** Modelled from the spec: [get_documents] of the absent module
    [database], the adapter's [query(collection_name, filter, limit) ->
    ordered_sequence_of_record]: the documents of the collection that
    satisfy the filter, in the store's order, at most [limit] of them.  It
    fails with [StoreUnavailable] / [StoreReadError] as the insert does. *)
Definition get_documents (db : option Store) (collection_name : string)
    (filter_dict : dict) (limit : nat) : outcome StoreError (list dict) :=
  match db with
  | None => Raise StoreUnavailable
  | Some d =>
      match fault d with
      | Some m => Raise (StoreReadError (str_slice_to msg_limit m))
      | None =>
          Return (take limit
                    (List.filter (doc_matches filter_dict)
                       (collection d collection_name)))
      end
  end.

(** [GET /test] *)
Definition test_database (environ : string -> option string)
    (db : option Store) : outcome http_error dict :=
  let response : dict :=
    [("backend", VStr "✅ Running");
     ("database", VStr "❌ Not Available");
     ("database_url",
      VStr (if env_set environ "DATABASE_URL" then "✅ Set" else "❌ Not Set"));
     ("database_name",
      VStr (if env_set environ "DATABASE_NAME" then "✅ Set" else "❌ Not Set"));
     ("connection_status", VStr "Not Connected");
     ("collections", VList [])]%string in
  let response :=
    match db with
    | Some d =>
        let response := Dict.set "database" (VStr "✅ Available") response in
        match list_collection_names d with
        | Return collections =>
            let response :=
              Dict.set "collections" (VList (map VStr (take 20 collections)))
                response in
            let response :=
              Dict.set "database" (VStr "✅ Connected & Working") response in
            Dict.set "connection_status" (VStr "Connected") response
        | Raise e =>
            Dict.set "database"
              (VStr (String.append "⚠️ Connected but error: "
                       (str_slice_to 80 e)))
              response
        end
    | None => Dict.set "database" (VStr "❌ Not Initialized") response
    end in
  Return response.

(** [GET /schema] *)
Definition get_schema : outcome http_error dict :=
  Return
    (fold_left
       (fun out entry =>
          let example :=
            match model_json_schema (snd entry) with
            | Return schema => schema
            | Raise _ => VDict [("error", VStr "schema generation failed")]%string
            end in
          Dict.set (fst entry) example out)
       SCHEMA_MODELS []).

(** [POST /leads], the handler on a validated payload. *)
Definition create_lead (db : option Store) (payload : LeadIn.t)
    : outcome http_error dict * option Store :=
  let lead_dict := LeadIn.model_dump payload in
  let lead_dict :=
    Dict.update lead_dict
      [("status", VStr "new");
       ("meta", VDict [("ingest", VStr "api")])]%string in
  match create_document db "lead" lead_dict with
  | Return (inserted_id, d') =>
      (Return [("id", VStr inserted_id); ("status", VStr "created")]%string,
       Some d')
  | Raise e => (Raise (HTTPException 500 (str e)), db)
  end.

(** [POST /leads] as the framework serves it: the body is validated
    against [LeadIn] before the handler runs. *)
Definition post_leads (db : option Store) (body : value)
    : outcome http_error dict * option Store :=
  match LeadIn.validate body with
  | Return payload => create_lead db payload
  | Raise e => (Raise e, db)
  end.

(** Lines 90-92 of [create_proposal_draft]: subtotal, tax and total. *)
Definition proposal_totals (items : list ProposalItem.t)
    : pynum * pynum * pynum :=
  let subtotal :=
    PyNum.sum
      (map (fun it =>
              PyNum.mul (PyNum.or (ProposalItem.quantity it) (PInt 1))
                        (PyNum.or (ProposalItem.unit_price_kes it) (PInt 0)))
           items) in
  let tax := PyNum.round2 (PyNum.mul subtotal (PFloat PyFloat.lit_0_16)) in
  let total := PyNum.round2 (PyNum.add subtotal tax) in
  (subtotal, tax, total).

(** [POST /proposals/draft], the handler on a validated payload. *)
Definition create_proposal_draft (db : option Store)
    (payload : ProposalDraftIn.t) : outcome http_error dict * option Store :=
  let '(subtotal, tax, total) :=
    proposal_totals (ProposalDraftIn.items payload) in
  match Proposal.new (ProposalDraftIn.tenant_id payload)
          (ProposalDraftIn.lead_id payload)
          (ProposalDraftIn.items payload)
          subtotal tax total "draft" "pending" ["pdf"%string] with
  | None => (Raise InternalServerError, db)
  | Some proposal =>
      match create_document db "proposal" (Proposal.model_dump proposal) with
      | Return (inserted_id, d') =>
          (Return
             [("id", VStr inserted_id);
              ("status", VStr "draft_created");
              ("totals",
               VDict [("subtotal", VNum subtotal);
                      ("tax", VNum tax);
                      ("total", VNum total)])]%string,
           Some d')
      | Raise e => (Raise (HTTPException 500 (str e)), db)
      end
  end.

(** [GET /leads?tenant_id=] *)
Definition list_leads (db : option Store) (tenant_id : string)
    : outcome http_error (list dict) :=
  match get_documents db "lead" [("tenant_id"%string, VStr tenant_id)] 50 with
  | Return docs => Return docs
  | Raise e => Raise (HTTPException 500 (str e))
  end.

(** [GET /proposals?tenant_id=] *)
Definition list_proposals (db : option Store) (tenant_id : string)
    : outcome http_error (list dict) :=
  match get_documents db "proposal" [("tenant_id"%string, VStr tenant_id)] 50 with
  | Return docs => Return docs
  | Raise e => Raise (HTTPException 500 (str e))
  end.

End Backend.

(** The subtotal as the system description words it: the sum over the items
    of quantity times unit price (a missing field has already taken its
    default, 1 or 0, when the item was validated). *)
Definition described_subtotal (items : list ProposalItem.t) : pynum :=
  PyNum.sum
    (map (fun it =>
            PyNum.mul (ProposalItem.quantity it) (ProposalItem.unit_price_kes it))
       items).

(** A store that answers every operation. *)
Definition healthy (d : Store) : Prop := fault d = None.

(** The store after one more document was persisted in a collection. *)
Definition store_with (d : Store) (collection_name : string) (doc : dict)
    : Store :=
  {| collections :=
       <[collection_name := collection d collection_name ++ [doc]]>
         (collections d);
     fault := None;
     next_id := S (next_id d) |}.




(** The fields of [schemas.py] declared with a [Literal[...]] type: the
    class, the field, the allowed strings and the field's default when it
    has one. *)
Record literal_field : Type := {
  lf_class : Model.t;
  lf_field : string;
  lf_allowed : list string;
  lf_default : option string
}.

Definition plan_literal : list string :=
  ["free"; "business"; "enterprise"]%string.

Definition currency_literal : list string := ["KES"; "USD"]%string.

Definition LITERAL_FIELDS : list literal_field :=
  [ {| lf_class := Model.Tenant; lf_field := "plan";
       lf_allowed := plan_literal; lf_default := Some "free" |};
    {| lf_class := Model.BillingRecord; lf_field := "plan";
       lf_allowed := plan_literal; lf_default := None |};
    {| lf_class := Model.BillingRecord; lf_field := "status";
       lf_allowed := ["trial"; "active"; "past_due"; "canceled"];
       lf_default := Some "active" |};
    {| lf_class := Model.ModuleSubscription; lf_field := "module_key";
       lf_allowed :=
         ["sender_id_sms"; "shortcodes"; "ussd"; "sms_surveys";
          "rewards_airtime"; "mpesa_integration"; "bulk_emails";
          "notifications"; "loyalty_points"];
       lf_default := None |};
    {| lf_class := Model.ModuleSubscription; lf_field := "status";
       lf_allowed := ["active"; "inactive"; "pending"];
       lf_default := Some "active" |};
    {| lf_class := Model.UserAccount; lf_field := "role";
       lf_allowed := ["owner"; "admin"; "sales"; "viewer"];
       lf_default := Some "owner" |};
    {| lf_class := Model.Lead; lf_field := "source";
       lf_allowed := Lead.source_literal; lf_default := None |};
    {| lf_class := Model.Lead; lf_field := "status";
       lf_allowed := Lead.status_literal; lf_default := Some "new" |};
    {| lf_class := Model.Message; lf_field := "channel";
       lf_allowed := ["whatsapp"; "gmail"; "sms"; "email"];
       lf_default := None |};
    {| lf_class := Model.Message; lf_field := "direction";
       lf_allowed := ["inbound"; "outbound"]; lf_default := None |};
    {| lf_class := Model.CatalogItem; lf_field := "currency";
       lf_allowed := currency_literal; lf_default := Some "KES" |};
    {| lf_class := Model.Proposal; lf_field := "status";
       lf_allowed := Proposal.status_literal; lf_default := Some "draft" |};
    {| lf_class := Model.Proposal; lf_field := "ai_status";
       lf_allowed := Proposal.ai_status_literal;
       lf_default := Some "pending" |};
    {| lf_class := Model.Payment; lf_field := "provider";
       lf_allowed := ["mpesa"; "paystack"]; lf_default := None |};
    {| lf_class := Model.Payment; lf_field := "currency";
       lf_allowed := currency_literal; lf_default := Some "KES" |};
    {| lf_class := Model.Payment; lf_field := "status";
       lf_allowed := ["initiated"; "succeeded"; "failed"];
       lf_default := Some "initiated" |};
    {| lf_class := Model.AIJob; lf_field := "job_type";
       lf_allowed :=
         ["lead_analysis"; "catalog_generation"; "proposal_generation";
          "embedding"];
       lf_default := None |};
    {| lf_class := Model.AIJob; lf_field := "status";
       lf_allowed := ["queued"; "running"; "completed"; "failed"];
       lf_default := Some "queued" |} ]%string.

(** The six keys of the response of [GET /test], in order. *)
Definition TEST_KEYS : list string :=
  ["backend"; "database"; "database_url"; "database_name";
   "connection_status"; "collections"]%string.

(** A number that is neither an infinity nor NaN. *)
Definition finite_num (n : pynum) : bool :=
  match n with
  | PInt _ => true
  | PFloat (S754_zero _) => true
  | PFloat (S754_finite _ _ _) => true
  | PFloat _ => false
  end.

(** One environment with both variables set, one with neither, one with an
    empty [DATABASE_URL]. *)
Definition environ_set (k : string) : option string :=
  if String.eqb k "DATABASE_URL" then Some "mongodb://db.internal:27017"%string
  else if String.eqb k "DATABASE_NAME" then Some "crm"%string
  else None.


(** Stores and requests used as concrete instances below. *)
Definition empty_store : Store :=
  {| collections := ∅; fault := None; next_id := 0 |}.

Definition failing_store (m : string) : Store :=
  {| collections := ∅; fault := Some m; next_id := 0 |}.

Definition lead_doc (tenant_id lead_name inserted_id : string) : dict :=
  [("tenant_id", VStr tenant_id);
   ("source", VStr "web");
   ("name", VStr lead_name);
   ("phone", VNone);
   ("email", VNone);
   ("company", VNone);
   ("status", VStr "new");
   ("meta", VDict [("ingest", VStr "api")]);
   ("_id", VStr inserted_id)]%string.

Definition two_tenant_store : Store :=
  {| collections :=
       {[ "lead"%string :=
            [lead_doc "t1" "Asha" "0"; lead_doc "t2" "Brian" "1";
             lead_doc "t1" "Chege" "2"] ]};
     fault := None;
     next_id := 3 |}.

Definition sample_lead : LeadIn.t :=
  {| LeadIn.tenant_id := "t1"; LeadIn.source := "web";
     LeadIn.name := Some "Asha"%string; LeadIn.phone := None;
     LeadIn.email := None; LeadIn.company := None |}.

Definition sample_lead_body : dict :=
  [("tenant_id", VStr "t1"); ("source", VStr "web");
   ("name", VStr "Asha")]%string.

Definition sample_extra_keys : dict :=
  [("status", VStr "won");
   ("meta", VDict [("ingest", VStr "import")]);
   ("score", VNum (PInt 250))]%string.

Definition sample_draft : ProposalDraftIn.t :=
  {| ProposalDraftIn.tenant_id := "t1";
     ProposalDraftIn.lead_id := "l1";
     ProposalDraftIn.items :=
       [ProposalItem.new None "Website" None (Some (PInt 2)) (Some (PInt 1000));
        ProposalItem.new None "Hosting" None (Some (PInt 1)) (Some (PInt 500))]
  |}.

(* ===================================================================== *)
(** ** Properties *)
(* ===================================================================== *)

Lemma Dict_get_set_eq (k : string) (v : value) (d : dict) :
  Dict.get k (Dict.set k v d) = Some v.
Proof.
  induction d as [|[k' v'] d IH]; simpl.
  - by rewrite String.eqb_refl.
  - destruct (String.eqb k k') eqn:E; simpl.
    + by rewrite String.eqb_refl.
    + by rewrite E.
Qed.

Lemma Dict_get_set_ne (k k' : string) (v : value) (d : dict) :
  k <> k' -> Dict.get k' (Dict.set k v d) = Dict.get k' d.
Proof.
  intros Hne.
  induction d as [|[k0 v0] d IH]; simpl.
  - destruct (String.eqb_spec k' k); congruence.
  - destruct (String.eqb_spec k k0) as [->|Hk]; simpl.
    + destruct (String.eqb_spec k' k0); congruence.
    + destruct (String.eqb_spec k' k0); congruence.
Qed.

Lemma Dict_get_update_ne (k : string) (other d : dict) :
  ~ In k (Dict.keys other) ->
  Dict.get k (Dict.update d other) = Dict.get k d.
Proof.
  unfold Dict.update.
  revert d.
  induction other as [|[k0 v0] other IH]; intros d Hnot; simpl in *.
  - reflexivity.
  - rewrite IH by tauto.
    apply Dict_get_set_ne. intros ->. tauto.
Qed.

Lemma collection_store_with (d : Store) (c : string) (doc : dict) :
  collection (store_with d c doc) c = collection d c ++ [doc].
Proof. unfold collection at 1, store_with; simpl. by rewrite lookup_insert_eq. Qed.

Lemma collection_store_with_ne (d : Store) (c c' : string) (doc : dict) :
  c <> c' -> collection (store_with d c doc) c' = collection d c'.
Proof.
  intros Hne. unfold collection, store_with; simpl.
  by rewrite lookup_insert_ne.
Qed.

(** On a healthy store the adapter's insert persists the record with its
    generated id and answers that id. *)
Lemma create_document_healthy (msg_limit : nat) (d : Store) (c : string) (data : dict) :
  healthy d ->
  create_document msg_limit (Some d) c data
  = Return (pretty (next_id d),
            store_with d c (Dict.set "_id" (VStr (pretty (next_id d))) data)).
Proof. unfold healthy, create_document. intros ->. reflexivity. Qed.

Lemma Proposal_new_draft (tenant_id lead_id : string)
    (items : list ProposalItem.t) (subtotal tax total : pynum) :
  Proposal.new tenant_id lead_id items subtotal tax total
    "draft" "pending" ["pdf"%string]
  = Some {| Proposal.tenant_id := tenant_id;
            Proposal.lead_id := lead_id;
            Proposal.items := items;
            Proposal.subtotal_kes := PyNum.to_float subtotal;
            Proposal.tax_kes := PyNum.to_float tax;
            Proposal.total_kes := PyNum.to_float total;
            Proposal.status := "draft";
            Proposal.ai_status := "pending";
            Proposal.delivery_channels := ["pdf"%string] |}.
Proof. reflexivity. Qed.

(** On a healthy store a draft is always created: the answer carries the
    totals of [proposal_totals] and the proposal is persisted with them. *)
Lemma create_proposal_draft_healthy (msg_limit : nat) (unavailable_msg : string)
    (d : Store) (payload : ProposalDraftIn.t) :
  healthy d ->
  let '(subtotal, tax, total) :=
    proposal_totals (ProposalDraftIn.items payload) in
  let inserted_id := pretty (next_id d) in
  let doc :=
    [("tenant_id", VStr (ProposalDraftIn.tenant_id payload));
     ("lead_id", VStr (ProposalDraftIn.lead_id payload));
     ("items",
      VList (map (fun it => VDict (ProposalItem.model_dump it))
               (ProposalDraftIn.items payload)));
     ("subtotal_kes", VNum (PFloat (PyNum.to_float subtotal)));
     ("tax_kes", VNum (PFloat (PyNum.to_float tax)));
     ("total_kes", VNum (PFloat (PyNum.to_float total)));
     ("status", VStr "draft");
     ("ai_status", VStr "pending");
     ("delivery_channels", VList [VStr "pdf"]);
     ("_id", VStr inserted_id)]%string in
  create_proposal_draft msg_limit unavailable_msg (Some d) payload
  = (Return
       [("id", VStr inserted_id);
        ("status", VStr "draft_created");
        ("totals",
         VDict [("subtotal", VNum subtotal);
                ("tax", VNum tax);
                ("total", VNum total)])]%string,
     Some (store_with d "proposal" doc)).
Proof.
  intros Hd. unfold create_proposal_draft.
  destruct (proposal_totals (ProposalDraftIn.items payload)) as [[subtotal tax] total].
  rewrite Proposal_new_draft, (create_document_healthy _ _ _ _ Hd).
  reflexivity.
Qed.

(** When no quantity and no unit price is falsy, the handler's subtotal is
    the described sum of quantity times unit price. *)
Lemma subtotal_described_when_truthy (items : list ProposalItem.t) :
  Forall (fun it =>
            PyNum.truthy (ProposalItem.quantity it) = true
            /\ PyNum.truthy (ProposalItem.unit_price_kes it) = true) items ->
  fst (fst (proposal_totals items)) = described_subtotal items.
Proof.
  intros Hall. unfold proposal_totals, described_subtotal; simpl.
  f_equal.
  induction Hall as [|it items [Hq Hp] _ IH]; simpl; [reflexivity|].
  unfold PyNum.or at 1 2. rewrite Hq, Hp. by f_equal.
Qed.

(** C1 (the code departs from the claim): an item with quantity 0 and unit
    price 100 is billed as one unit.  The handler's subtotal is 100.0 (tax
    16.0, total 116.0), where the described sum of quantity times unit price
    is 0.0: [it.quantity or 1] replaces a zero quantity, not only a missing
    one. *)
Theorem C1_zero_quantity_billed_as_one :
  forall (catalog_item_id : option string) (title : string)
         (description : option string),
    let item :=
      ProposalItem.new catalog_item_id title description
        (Some (PInt 0)) (Some (PInt 100)) in
    proposal_totals [item]
    = (PFloat (PyFloat.of_Z 100), PFloat (PyFloat.of_Z 16),
       PFloat (PyFloat.of_Z 116))
    /\ described_subtotal [item] = PFloat (S754_zero false)
    /\ PyNum.eqb (fst (fst (proposal_totals [item]))) (described_subtotal [item])
       = false.
Proof. intros c t de. vm_compute. auto. Qed.

(** C5: for items (quantity 2, unit price 1000) and (quantity 1, unit price
    500), whatever their other fields, the handler computes subtotal 2500,
    tax 400.00 and total 2900.00; on a healthy store these are the totals
    of the answer and the amounts of the persisted proposal. *)
Theorem C5_example_totals :
  forall (msg_limit : nat) (unavailable_msg : string) (d : Store)
         (tenant_id lead_id : string)
         (c1 c2 : option string) (t1 t2 : string) (d1 d2 : option string),
    healthy d ->
    let items :=
      [ProposalItem.new c1 t1 d1 (Some (PInt 2)) (Some (PInt 1000));
       ProposalItem.new c2 t2 d2 (Some (PInt 1)) (Some (PInt 500))] in
    let payload :=
      {| ProposalDraftIn.tenant_id := tenant_id;
         ProposalDraftIn.lead_id := lead_id;
         ProposalDraftIn.items := items |} in
    proposal_totals items
    = (PFloat (PyFloat.of_Z 2500), PFloat (PyFloat.of_Z 400),
       PFloat (PyFloat.of_Z 2900))
    /\ exists doc,
         create_proposal_draft msg_limit unavailable_msg (Some d) payload
         = (Return
              [("id", VStr (pretty (next_id d)));
               ("status", VStr "draft_created");
               ("totals",
                VDict [("subtotal", VNum (PFloat (PyFloat.of_Z 2500)));
                       ("tax", VNum (PFloat (PyFloat.of_Z 400)));
                       ("total", VNum (PFloat (PyFloat.of_Z 2900)))])]%string,
            Some (store_with d "proposal" doc))
         /\ Dict.get "subtotal_kes" doc = Some (VNum (PFloat (PyFloat.of_Z 2500)))
         /\ Dict.get "tax_kes" doc = Some (VNum (PFloat (PyFloat.of_Z 400)))
         /\ Dict.get "total_kes" doc = Some (VNum (PFloat (PyFloat.of_Z 2900))).
Proof.
  intros msg_limit unavailable_msg d tenant_id lead_id c1 c2 t1 t2 d1 d2 Hd
         items payload.
  assert (Ht : proposal_totals items
               = (PFloat (PyFloat.of_Z 2500), PFloat (PyFloat.of_Z 400),
                  PFloat (PyFloat.of_Z 2900))) by (vm_compute; reflexivity).
  split; [exact Ht|].
  pose proof (create_proposal_draft_healthy msg_limit unavailable_msg d payload Hd)
    as Hrun.
  simpl ProposalDraftIn.items in Hrun. fold items in Hrun. rewrite Ht in Hrun.
  eexists. split; [exact Hrun|].
  repeat split; reflexivity.
Qed.

(** C10: validation of a [ProposalItem] keeps any quantity and any unit
    price as given, without a lower bound; for an item with quantity 1 and
    unit price -100 the handler succeeds on a healthy store, answers a
    negative subtotal (-100.0) and total (-116.0) and persists them. *)
Theorem C10_negative_totals_accepted :
  forall (msg_limit : nat) (unavailable_msg : string) (d : Store)
         (tenant_id lead_id : string),
    healthy d ->
    (forall (c : option string) (t : string) (de : option string)
            (q p : spec_float),
        ProposalItem.quantity
          (ProposalItem.new c t de (Some (PFloat q)) (Some (PFloat p)))
        = PFloat q
        /\ ProposalItem.unit_price_kes
             (ProposalItem.new c t de (Some (PFloat q)) (Some (PFloat p)))
           = PFloat p)
    /\ let item :=
         ProposalItem.new None "Discount" None (Some (PInt 1))
           (Some (PInt (-100))) in
       let payload :=
         {| ProposalDraftIn.tenant_id := tenant_id;
            ProposalDraftIn.lead_id := lead_id;
            ProposalDraftIn.items := [item] |} in
       exists (subtotal tax total : pynum) (doc : dict),
         create_proposal_draft msg_limit unavailable_msg (Some d) payload
         = (Return
              [("id", VStr (pretty (next_id d)));
               ("status", VStr "draft_created");
               ("totals",
                VDict [("subtotal", VNum subtotal);
                       ("tax", VNum tax);
                       ("total", VNum total)])]%string,
            Some (store_with d "proposal" doc))
         /\ subtotal = PFloat (PyFloat.of_Z (-100))
         /\ total = PFloat (PyFloat.of_Z (-116))
         /\ PyNum.ltb subtotal (PInt 0) = true
         /\ PyNum.ltb total (PInt 0) = true
         /\ Dict.get "subtotal_kes" doc = Some (VNum subtotal)
         /\ Dict.get "total_kes" doc = Some (VNum total).
Proof.
  intros msg_limit unavailable_msg d tenant_id lead_id Hd.
  split; [intros; split; reflexivity|].
  intros item payload.
  assert (Ht : proposal_totals [item]
               = (PFloat (PyFloat.of_Z (-100)), PFloat (PyFloat.of_Z (-16)),
                  PFloat (PyFloat.of_Z (-116)))) by (vm_compute; reflexivity).
  pose proof (create_proposal_draft_healthy msg_limit unavailable_msg d payload Hd)
    as Hrun.
  simpl ProposalDraftIn.items in Hrun. rewrite Ht in Hrun.
  do 4 eexists. split; [exact Hrun|].
  repeat split; reflexivity.
Qed.

Lemma LeadIn_required_str_set_ne (k k' : string) (v : value) (d : dict) :
  k <> k' ->
  LeadIn.required_str k' (Dict.set k v d) = LeadIn.required_str k' d.
Proof.
  intros Hne. unfold LeadIn.required_str. by rewrite Dict_get_set_ne.
Qed.

Lemma LeadIn_optional_str_set_ne (k k' : string) (v : value) (d : dict) :
  k <> k' ->
  LeadIn.optional_str k' (Dict.set k v d) = LeadIn.optional_str k' d.
Proof.
  intros Hne. unfold LeadIn.optional_str. by rewrite Dict_get_set_ne.
Qed.

(** A key that [LeadIn] does not declare has no influence on validation. *)
Lemma LeadIn_validate_set_extra (k : string) (v : value) (d : dict) :
  ~ In k LeadIn.field_names ->
  LeadIn.validate (VDict (Dict.set k v d)) = LeadIn.validate (VDict d).
Proof.
  intros Hnot. unfold LeadIn.field_names in Hnot. simpl in Hnot.
  assert (H1 : k <> "tenant_id"%string) by (intros ->; tauto).
  assert (H2 : k <> "source"%string) by (intros ->; tauto).
  assert (H3 : k <> "name"%string) by (intros ->; tauto).
  assert (H4 : k <> "phone"%string) by (intros ->; tauto).
  assert (H5 : k <> "email"%string) by (intros ->; tauto).
  assert (H6 : k <> "company"%string) by (intros ->; tauto).
  unfold LeadIn.validate, LeadIn.invalid_fields, LeadIn.field_names.
  simpl List.filter.
  rewrite !(LeadIn_required_str_set_ne k "tenant_id") by assumption.
  rewrite !(LeadIn_required_str_set_ne k "source") by assumption.
  rewrite !(LeadIn_optional_str_set_ne k "name") by assumption.
  rewrite !(LeadIn_optional_str_set_ne k "phone") by assumption.
  rewrite !(LeadIn_optional_str_set_ne k "email") by assumption.
  rewrite !(LeadIn_optional_str_set_ne k "company") by assumption.
  reflexivity.
Qed.

Lemma LeadIn_validate_update_extra (extra d : dict) :
  (forall k, In k (Dict.keys extra) -> ~ In k LeadIn.field_names) ->
  LeadIn.validate (VDict (Dict.update d extra)) = LeadIn.validate (VDict d).
Proof.
  unfold Dict.update. revert d.
  induction extra as [|[k v] extra IH]; intros d Hextra; simpl in *.
  - reflexivity.
  - rewrite IH by (intros k0 Hk0; apply Hextra; tauto).
    apply LeadIn_validate_set_extra. apply Hextra. tauto.
Qed.

(** On a healthy store a lead is always created; the persisted record is
    the payload's six fields followed by the forced [status] and [meta]
    and the generated id. *)
Lemma create_lead_healthy (msg_limit : nat) (unavailable_msg : string)
    (d : Store) (payload : LeadIn.t) :
  healthy d ->
  let inserted_id := pretty (next_id d) in
  create_lead msg_limit unavailable_msg (Some d) payload
  = (Return [("id", VStr inserted_id); ("status", VStr "created")]%string,
     Some (store_with d "lead"
             [("tenant_id", VStr (LeadIn.tenant_id payload));
              ("source", VStr (LeadIn.source payload));
              ("name", opt_str (LeadIn.name payload));
              ("phone", opt_str (LeadIn.phone payload));
              ("email", opt_str (LeadIn.email payload));
              ("company", opt_str (LeadIn.company payload));
              ("status", VStr "new");
              ("meta", VDict [("ingest", VStr "api")]);
              ("_id", VStr inserted_id)]%string)).
Proof.
  intros Hd. unfold create_lead.
  rewrite (create_document_healthy _ _ _ _ Hd). reflexivity.
Qed.

(** C2: take any body that [LeadIn] accepts and add to it any keys that
    [LeadIn] does not declare (a [status], a [meta], anything else), with
    any values.  The request is still accepted, and on a healthy store the
    record persisted in the "lead" collection has [status] "new" and
    [meta] equal to [{"ingest": "api"}]: it consists of the six validated
    fields, these two forced fields and the generated id, and of nothing
    that the extra keys carried. *)
Theorem C2_lead_status_and_meta_forced :
  forall (msg_limit : nat) (unavailable_msg : string) (d : Store)
         (body extra : dict) (payload : LeadIn.t),
    LeadIn.validate (VDict body) = Return payload ->
    (forall k, In k (Dict.keys extra) -> ~ In k LeadIn.field_names) ->
    healthy d ->
    exists doc : dict,
      post_leads msg_limit unavailable_msg (Some d)
        (VDict (Dict.update body extra))
      = (Return [("id", VStr (pretty (next_id d)));
                 ("status", VStr "created")]%string,
         Some (store_with d "lead" doc))
      /\ collection (store_with d "lead" doc) "lead"
         = collection d "lead" ++ [doc]
      /\ Dict.get "status" doc = Some (VStr "new")
      /\ Dict.get "meta" doc = Some (VDict [("ingest"%string, VStr "api")])
      /\ doc = LeadIn.model_dump payload
                ++ [("status"%string, VStr "new");
                    ("meta"%string, VDict [("ingest"%string, VStr "api")]);
                    ("_id"%string, VStr (pretty (next_id d)))].
Proof.
  intros msg_limit unavailable_msg d body extra payload Hval Hextra Hd.
  eexists. split; [|split; [apply collection_store_with|]].
  - unfold post_leads.
    rewrite (LeadIn_validate_update_extra extra body Hextra), Hval.
    apply (create_lead_healthy msg_limit unavailable_msg d payload Hd).
  - repeat split; reflexivity.
Qed.

(** C3 (the code departs from the claim): the body
    [{"tenant_id": "t1", "source": "fax"}] of [POST /leads] passes
    validation although "fax" is outside the literal set that the [Lead]
    schema gives to [source], and on any store that answers, a record with
    source "fax" is inserted into the "lead" collection. *)
Theorem C3_source_outside_enum_is_inserted :
  forall (msg_limit : nat) (unavailable_msg : string)
         (stored : gmap string (list dict)) (n : nat),
    let d := {| collections := stored; fault := None; next_id := n |} in
    let body := VDict [("tenant_id", VStr "t1"); ("source", VStr "fax")]%string in
    in_literal Lead.source_literal "fax" = false
    /\ exists doc : dict,
         post_leads msg_limit unavailable_msg (Some d) body
         = (Return [("id", VStr (pretty n)); ("status", VStr "created")]%string,
            Some (store_with d "lead" doc))
         /\ collection (store_with d "lead" doc) "lead"
            = collection d "lead" ++ [doc]
         /\ Dict.get "source" doc = Some (VStr "fax").
Proof.
  intros msg_limit unavailable_msg stored n d body.
  split; [reflexivity|].
  eexists. split; [|split; [apply collection_store_with|]].
  - unfold post_leads, body. simpl LeadIn.validate.
    apply (create_lead_healthy msg_limit unavailable_msg d _ eq_refl).
  - reflexivity.
Qed.

Lemma value_eqb_VStr (s : string) (v : value) :
  value_eqb (VStr s) v = true -> v = VStr s.
Proof.
  destruct v; simpl; try discriminate.
  intros H. apply String.eqb_eq in H. by subst.
Qed.

Lemma doc_matches_tenant (tenant_id : string) (doc : dict) :
  doc_matches [("tenant_id"%string, VStr tenant_id)] doc = true ->
  Dict.get "tenant_id" doc = Some (VStr tenant_id).
Proof.
  unfold doc_matches; simpl.
  destruct (Dict.get "tenant_id" doc) as [v|]; [|discriminate].
  rewrite andb_true_r. intros H. by rewrite (value_eqb_VStr _ _ H).
Qed.

(** What a query of the adapter returns: at most [limit] documents, each
    of the collection and each satisfying the filter. *)
Lemma get_documents_sound (msg_limit : nat) (db : option Store)
    (c : string) (filter_dict : dict) (limit : nat) (docs : list dict) :
  get_documents msg_limit db c filter_dict limit = Return docs ->
  (length docs <= limit)%nat
  /\ forall doc, In doc docs ->
       doc_matches filter_dict doc = true
       /\ exists d, db = Some d /\ In doc (collection d c).
Proof.
  unfold get_documents.
  destruct db as [d|]; [|discriminate].
  destruct (fault d); [discriminate|].
  intros [= <-]. split.
  - rewrite length_take. lia.
  - intros doc Hin.
    assert (Hf : In doc (List.filter (doc_matches filter_dict) (collection d c))).
    { apply list_elem_of_In. eapply (subseteq_take limit).
      apply list_elem_of_In. exact Hin. }
    apply List.filter_In in Hf as [Hc Hm]. eauto.
Qed.

(** C4: whatever the store holds, a listing that answers ([GET /leads] or
    [GET /proposals]) answers at most 50 records, and every one of them
    carries the requested [tenant_id]. *)
Theorem C4_listing_tenant_scoped_and_capped :
  forall (msg_limit : nat) (unavailable_msg : string) (db : option Store)
         (tenant_id : string) (docs : list dict),
    list_leads msg_limit unavailable_msg db tenant_id = Return docs
    \/ list_proposals msg_limit unavailable_msg db tenant_id = Return docs ->
    (length docs <= 50)%nat
    /\ forall doc, In doc docs ->
         Dict.get "tenant_id" doc = Some (VStr tenant_id).
Proof.
  intros msg_limit unavailable_msg db tenant_id docs H.
  assert (Hq : exists c,
             get_documents msg_limit db c
               [("tenant_id"%string, VStr tenant_id)] 50 = Return docs).
  { destruct H as [H|H]; [exists "lead"%string | exists "proposal"%string];
      unfold list_leads, list_proposals in H;
      match type of H with
      | context [get_documents ?l ?b ?c ?f ?n] =>
          destruct (get_documents l b c f n) eqn:E
      end; congruence. }
  destruct Hq as [c Hq].
  apply get_documents_sound in Hq as [Hlen Hdocs].
  split; [exact Hlen|].
  intros doc Hin. apply doc_matches_tenant. by apply Hdocs.
Qed.

(** C6: with no store connection ([db] is [None]) [GET /test] returns a
    response whose [database] field reads "Not Initialized" (and whose
    connection status is "Not Connected"), while the lead and the proposal
    creation both fail with HTTP 500 carrying the message of the adapter's
    error, and leave the handle as it was. *)
Theorem C6_absent_store_degrades :
  forall (msg_limit : nat) (unavailable_msg : string)
         (environ : string -> option string)
         (lead : LeadIn.t) (draft : ProposalDraftIn.t),
    (exists response,
        test_database environ None = Return response
        /\ Dict.get "database" response = Some (VStr "❌ Not Initialized")
        /\ Dict.get "connection_status" response = Some (VStr "Not Connected")
        /\ Dict.get "collections" response = Some (VList []))
    /\ create_lead msg_limit unavailable_msg None lead
       = (Raise (HTTPException 500 unavailable_msg), None)
    /\ create_proposal_draft msg_limit unavailable_msg None draft
       = (Raise (HTTPException 500 unavailable_msg), None).
Proof.
  intros msg_limit unavailable_msg environ lead draft.
  split; [|split].
  - eexists. split; [reflexivity|]. repeat split; reflexivity.
  - reflexivity.
  - unfold create_proposal_draft.
    destruct (proposal_totals (ProposalDraftIn.items draft)) as [[s t] tot].
    rewrite Proposal_new_draft. reflexivity.
Qed.

(** C7: [GET /schema] always answers, with one entry per registered kind
    and in the registry's order; the entry of a kind is its schema
    descriptor when the generation succeeds and the marker
    [{"error": "schema generation failed"}] when it fails, whatever
    happens for the other kinds. *)
Theorem C7_schema_failure_is_per_entry :
  forall (model_json_schema : Model.t -> outcome string value),
    exists out : dict,
      get_schema model_json_schema = Return out
      /\ Dict.keys out = map fst SCHEMA_MODELS
      /\ Forall
           (fun entry =>
              Dict.get (fst entry) out
              = Some match model_json_schema (snd entry) with
                     | Return schema => schema
                     | Raise _ =>
                         VDict [("error"%string, VStr "schema generation failed")]
                     end)
           SCHEMA_MODELS.
Proof.
  intros gen. eexists. split; [reflexivity|].
  split; [reflexivity|].
  unfold SCHEMA_MODELS. repeat constructor.
Qed.

Lemma str_slice_to_length (n : nat) (s : string) :
  (String.length (str_slice_to n s) <= n)%nat.
Proof.
  revert s. induction n as [|n IH]; intros [|c s]; simpl; try lia.
  specialize (IH s). lia.
Qed.

Lemma str_slice_to_prefix (n : nat) (s : string) :
  exists rest, s = String.append (str_slice_to n s) rest.
Proof.
  revert s. induction n as [|n IH]; intros [|c s]; simpl; eauto.
  destruct (IH s) as [rest Hrest]. exists rest.
  change (String c s = String c (String.append (str_slice_to n s) rest)).
  f_equal. exact Hrest.
Qed.

(** C8: when the store engine fails an operation with message [m], each of
    [POST /leads], [POST /proposals/draft], [GET /leads] and
    [GET /proposals] answers HTTP 500 whose detail is [m] cut to the
    adapter's limit: a prefix of [m] of at most that many characters.  The
    handlers themselves pass the adapter's message on unchanged, and a
    failed write leaves the store as it was. *)
Theorem C8_store_failure_surfaces_truncated :
  forall (msg_limit : nat) (unavailable_msg : string) (d : Store) (m : string)
         (lead : LeadIn.t) (draft : ProposalDraftIn.t) (tenant_id : string),
    fault d = Some m ->
    let detail := str_slice_to msg_limit m in
    create_lead msg_limit unavailable_msg (Some d) lead
    = (Raise (HTTPException 500 detail), Some d)
    /\ create_proposal_draft msg_limit unavailable_msg (Some d) draft
       = (Raise (HTTPException 500 detail), Some d)
    /\ list_leads msg_limit unavailable_msg (Some d) tenant_id
       = Raise (HTTPException 500 detail)
    /\ list_proposals msg_limit unavailable_msg (Some d) tenant_id
       = Raise (HTTPException 500 detail)
    /\ (String.length detail <= msg_limit)%nat
    /\ exists rest, m = String.append detail rest.
Proof.
  intros msg_limit unavailable_msg d m lead draft tenant_id Hf detail.
  repeat split.
  - unfold create_lead, create_document. by rewrite Hf.
  - unfold create_proposal_draft.
    destruct (proposal_totals (ProposalDraftIn.items draft)) as [[s t] tot].
    rewrite Proposal_new_draft. unfold create_document. by rewrite Hf.
  - unfold list_leads, get_documents. by rewrite Hf.
  - unfold list_proposals, get_documents. by rewrite Hf.
  - apply str_slice_to_length.
  - apply str_slice_to_prefix.
Qed.

(** C9: in every state of the store and of the environment [GET /test]
    returns a response whose [collections] field is a list of at most 20
    names. *)
Theorem C9_at_most_20_collection_names :
  forall (environ : string -> option string) (db : option Store),
    exists (response : dict) (names : list value),
      test_database environ db = Return response
      /\ Dict.get "collections" response = Some (VList names)
      /\ (length names <= 20)%nat.
Proof.
  intros environ db. unfold test_database.
  destruct db as [d|].
  - destruct (list_collection_names d) as [collections|e].
    + eexists _, (map VStr (take 20 collections)).
      split; [reflexivity|]. split; [reflexivity|].
      rewrite length_map, length_take. lia.
    + eexists _, []. split; [reflexivity|]. split; [reflexivity|]. simpl. lia.
  - eexists _, []. split; [reflexivity|]. split; [reflexivity|]. simpl. lia.
Qed.

(* ===================================================================== *)
(** ** Concrete instances *)
(* ===================================================================== *)

Lemma C5_example_totals_witness :
  healthy empty_store
  /\ proposal_totals (ProposalDraftIn.items sample_draft)
     = (PFloat (PyFloat.of_Z 2500), PFloat (PyFloat.of_Z 400),
        PFloat (PyFloat.of_Z 2900))
  /\ exists doc,
       create_proposal_draft 80 "Database not available" (Some empty_store)
         sample_draft
       = (Return
            [("id", VStr "0");
             ("status", VStr "draft_created");
             ("totals",
              VDict [("subtotal", VNum (PFloat (PyFloat.of_Z 2500)));
                     ("tax", VNum (PFloat (PyFloat.of_Z 400)));
                     ("total", VNum (PFloat (PyFloat.of_Z 2900)))])]%string,
          Some (store_with empty_store "proposal" doc)).
Proof.
  split; [reflexivity|].
  destruct (C5_example_totals 80 "Database not available" empty_store
              "t1" "l1" None None "Website" "Hosting" None None eq_refl)
    as [Htotals (doc & Hrun & _)].
  split; [exact Htotals|].
  exists doc. exact Hrun.
Defined.

Lemma C10_negative_totals_accepted_witness :
  healthy empty_store
  /\ exists (subtotal tax total : pynum) (doc : dict),
       create_proposal_draft 80 "Database not available" (Some empty_store)
         {| ProposalDraftIn.tenant_id := "t1";
            ProposalDraftIn.lead_id := "l1";
            ProposalDraftIn.items :=
              [ProposalItem.new None "Discount" None (Some (PInt 1))
                 (Some (PInt (-100)))] |}
       = (Return
            [("id", VStr "0");
             ("status", VStr "draft_created");
             ("totals",
              VDict [("subtotal", VNum subtotal);
                     ("tax", VNum tax);
                     ("total", VNum total)])]%string,
          Some (store_with empty_store "proposal" doc))
       /\ PyNum.ltb subtotal (PInt 0) = true
       /\ PyNum.ltb total (PInt 0) = true
       /\ Dict.get "subtotal_kes" doc = Some (VNum subtotal)
       /\ Dict.get "total_kes" doc = Some (VNum total).
Proof.
  split; [reflexivity|].
  destruct (C10_negative_totals_accepted 80 "Database not available"
              empty_store "t1" "l1" eq_refl)
    as [_ (subtotal & tax & total & doc & Hrun & _ & _ & Hs & Ht & Hds & Hdt)].
  exists subtotal, tax, total, doc. auto.
Defined.

Lemma C2_lead_status_and_meta_forced_witness :
  LeadIn.validate (VDict sample_lead_body) = Return sample_lead
  /\ (forall k, In k (Dict.keys sample_extra_keys) -> ~ In k LeadIn.field_names)
  /\ healthy empty_store
  /\ exists doc : dict,
       post_leads 80 "Database not available" (Some empty_store)
         (VDict (Dict.update sample_lead_body sample_extra_keys))
       = (Return [("id", VStr "0"); ("status", VStr "created")]%string,
          Some (store_with empty_store "lead" doc))
       /\ Dict.get "status" doc = Some (VStr "new")
       /\ Dict.get "meta" doc = Some (VDict [("ingest"%string, VStr "api")]).
Proof.
  assert (Hextra : forall k, In k (Dict.keys sample_extra_keys)
                             -> ~ In k LeadIn.field_names).
  { intros k Hk Hf. simpl in Hk, Hf.
    destruct Hk as [<-|[<-|[<-|[]]]];
      repeat (destruct Hf as [Hf|Hf]; [discriminate Hf|]); exact Hf. }
  split; [reflexivity|]. split; [exact Hextra|]. split; [reflexivity|].
  destruct (C2_lead_status_and_meta_forced 80 "Database not available"
              empty_store sample_lead_body sample_extra_keys sample_lead
              eq_refl Hextra eq_refl)
    as (doc & Hrun & _ & Hstatus & Hmeta & _).
  exists doc. auto.
Defined.

Lemma C4_listing_tenant_scoped_and_capped_witness :
  list_leads 80 "Database not available" (Some two_tenant_store) "t1"
  = Return [lead_doc "t1" "Asha" "0"; lead_doc "t1" "Chege" "2"]
  /\ (length [lead_doc "t1" "Asha" "0"; lead_doc "t1" "Chege" "2"] <= 50)%nat
  /\ forall doc,
       In doc [lead_doc "t1" "Asha" "0"; lead_doc "t1" "Chege" "2"] ->
       Dict.get "tenant_id" doc = Some (VStr "t1").
Proof.
  assert (Hrun : list_leads 80 "Database not available" (Some two_tenant_store)
                   "t1"
                 = Return [lead_doc "t1" "Asha" "0"; lead_doc "t1" "Chege" "2"])
    by (vm_compute; reflexivity).
  split; [exact Hrun|].
  exact (C4_listing_tenant_scoped_and_capped 80 "Database not available"
           (Some two_tenant_store) "t1" _ (or_introl Hrun)).
Defined.

Lemma C8_store_failure_surfaces_truncated_witness :
  fault (failing_store "connection refused by the server")
  = Some "connection refused by the server"%string
  /\ create_lead 18 "Database not available"
       (Some (failing_store "connection refused by the server")) sample_lead
     = (Raise (HTTPException 500 "connection refused"),
        Some (failing_store "connection refused by the server"))
  /\ list_proposals 18 "Database not available"
       (Some (failing_store "connection refused by the server")) "t1"
     = Raise (HTTPException 500 "connection refused").
Proof.
  split; [reflexivity|].
  destruct (C8_store_failure_surfaces_truncated 18 "Database not available"
              (failing_store "connection refused by the server")
              "connection refused by the server" sample_lead sample_draft "t1"
              eq_refl)
    as (Hlead & _ & _ & Hprop & _).
  split; [exact Hlead | exact Hprop].
Defined.

(* ===================================================================== *)
(** ** Further properties of the handlers *)
(* ===================================================================== *)


(** X2: when the handle exists and the driver lists the collections,
    [GET /test] reports "Connected & Working" / "Connected" and the first
    20 names in the driver's order; with at most 20 collections it reports
    all of them. *)
Theorem X2_test_database_connected :
  forall (environ : string -> option string) (d : Store) (names : list string),
    list_collection_names d = Return names ->
    exists response,
      test_database environ (Some d) = Return response
      /\ Dict.get "database" response = Some (VStr "✅ Connected & Working")
      /\ Dict.get "connection_status" response = Some (VStr "Connected")
      /\ Dict.get "collections" response
         = Some (VList (map VStr (take 20 names)))
      /\ ((length names <= 20)%nat ->
          Dict.get "collections" response = Some (VList (map VStr names))).
Proof.
  intros environ d names Hnames. unfold test_database. rewrite Hnames.
  eexists. split; [reflexivity|]. repeat split; try reflexivity.
  intros Hlen. rewrite take_ge by lia. reflexivity.
Qed.


(** X4: in every state [GET /test] answers with the same six keys in the
    same order, and it reports "Connected" exactly when the handle exists
    and listing the collections succeeds. *)
Theorem X4_test_database_shape_and_status :
  forall (environ : string -> option string) (db : option Store),
    exists response,
      test_database environ db = Return response
      /\ Dict.keys response = TEST_KEYS
      /\ (Dict.get "connection_status" response = Some (VStr "Connected")
          <-> exists d names,
                db = Some d /\ list_collection_names d = Return names).
Proof.
  intros environ db. unfold test_database.
  destruct db as [d|].
  - destruct (list_collection_names d) as [names|e] eqn:E;
      eexists; (split; [reflexivity|]); (split; [reflexivity|]); simpl; split.
    + intros _. eauto.
    + reflexivity.
    + discriminate.
    + intros (d' & names & [= <-] & H). congruence.
  - eexists. split; [reflexivity|]. split; [reflexivity|]. simpl. split.
    + discriminate.
    + intros (d' & names & H & _). discriminate.
Qed.



(** X6: dumping a validated [LeadIn] payload and validating the dump gives
    the payload back. *)
Theorem X6_LeadIn_dump_validate_round_trip :
  forall p : LeadIn.t,
    LeadIn.validate (VDict (LeadIn.model_dump p)) = Return p.
Proof.
  intros [t s [n|] [ph|] [e|] [c|]]; reflexivity.
Qed.

Lemma LeadIn_validate_raise (d : dict) (e : http_error) :
  LeadIn.validate (VDict d) = Raise e ->
  e = RequestValidationError (LeadIn.invalid_fields d).
Proof.
  unfold LeadIn.validate.
  destruct (LeadIn.required_str "tenant_id" d),
           (LeadIn.required_str "source" d),
           (LeadIn.optional_str "name" d),
           (LeadIn.optional_str "phone" d),
           (LeadIn.optional_str "email" d),
           (LeadIn.optional_str "company" d); congruence.
Qed.

(** X7: a body of [POST /leads] in which [tenant_id] or [source] is
    missing or is not a string, or in which one of [name], [phone],
    [email], [company] is present and is neither null nor a string, is
    rejected with a validation error that names the field; the handler
    does not run and the store is left as it was.  A body that is not an
    object is rejected as well. *)
Theorem X7_post_leads_rejects_invalid_field :
  forall (msg_limit : nat) (unavailable_msg : string) (db : option Store)
         (d : dict) (k : string),
    (In k ["tenant_id"; "source"]%string /\ LeadIn.required_str k d = None)
    \/ (In k ["name"; "phone"; "email"; "company"]%string
        /\ LeadIn.optional_str k d = None) ->
    exists fields,
      post_leads msg_limit unavailable_msg db (VDict d)
      = (Raise (RequestValidationError fields), db)
      /\ In k fields
      /\ (forall body,
             match body with VDict _ => False | _ => True end ->
             post_leads msg_limit unavailable_msg db body
             = (Raise (RequestValidationError []), db)).
Proof.
  intros msg_limit unavailable_msg db d k Hbad.
  exists (LeadIn.invalid_fields d).
  assert (Hin : In k (LeadIn.invalid_fields d)).
  { unfold LeadIn.invalid_fields. apply List.filter_In.
    destruct Hbad as [[Hk Hnone]|[Hk Hnone]]; simpl in Hk.
    - split; [unfold LeadIn.field_names; simpl; tauto|].
      destruct Hk as [<-|[<-|[]]]; simpl; by rewrite Hnone.
    - split; [unfold LeadIn.field_names; simpl; tauto|].
      destruct Hk as [<-|[<-|[<-|[<-|[]]]]]; simpl; by rewrite Hnone. }
  split; [|split; [exact Hin|]].
  - unfold post_leads.
    destruct (LeadIn.validate (VDict d)) as [p|e] eqn:E.
    + exfalso. unfold LeadIn.validate in E.
      destruct Hbad as [[Hk Hnone]|[Hk Hnone]]; simpl in Hk.
      * destruct Hk as [<-|[<-|[]]]; rewrite Hnone in E;
          destruct (LeadIn.required_str "tenant_id" d),
                   (LeadIn.required_str "source" d),
                   (LeadIn.optional_str "name" d),
                   (LeadIn.optional_str "phone" d),
                   (LeadIn.optional_str "email" d),
                   (LeadIn.optional_str "company" d); discriminate.
      * destruct Hk as [<-|[<-|[<-|[<-|[]]]]]; rewrite Hnone in E;
          destruct (LeadIn.required_str "tenant_id" d),
                   (LeadIn.required_str "source" d),
                   (LeadIn.optional_str "name" d),
                   (LeadIn.optional_str "phone" d),
                   (LeadIn.optional_str "email" d),
                   (LeadIn.optional_str "company" d); discriminate.
    + by rewrite (LeadIn_validate_raise d e E).
  - intros body Hbody. unfold post_leads.
    destruct body; simpl in *; try reflexivity. contradiction.
Qed.

(** X8: [create_lead] has two outcomes only.  Either the handle exists and
    the store answers: then the response carries the generated id, exactly
    one record is appended to the "lead" collection, that record carries
    the same id under "_id" and has the six payload keys, "status", "meta"
    and "_id" as its only keys, and every other collection is untouched.
    Or it raises HTTP 500 and hands the store back unchanged, which happens
    exactly when there is no handle or the store fails the write. *)
Theorem X8_create_lead_outcomes :
  forall (msg_limit : nat) (unavailable_msg : string) (db : option Store)
         (payload : LeadIn.t),
    (exists d doc,
        db = Some d /\ fault d = None
        /\ create_lead msg_limit unavailable_msg db payload
           = (Return [("id", VStr (pretty (next_id d)));
                      ("status", VStr "created")]%string,
              Some (store_with d "lead" doc))
        /\ collection (store_with d "lead" doc) "lead"
           = collection d "lead" ++ [doc]
        /\ Dict.get "_id" doc = Some (VStr (pretty (next_id d)))
        /\ Dict.keys doc
           = LeadIn.field_names ++ ["status"; "meta"; "_id"]%string
        /\ forall c, c <> "lead"%string ->
             collection (store_with d "lead" doc) c = collection d c)
    \/ (exists detail,
           create_lead msg_limit unavailable_msg db payload
           = (Raise (HTTPException 500 detail), db)
           /\ (db = None \/ exists d m, db = Some d /\ fault d = Some m)).
Proof.
  intros msg_limit unavailable_msg [d|] payload.
  - destruct (fault d) as [m|] eqn:Hf.
    + right. eexists. split.
      * unfold create_lead, create_document. rewrite Hf. reflexivity.
      * right. eauto.
    + left. eexists d, _. split; [reflexivity|]. split; [exact Hf|].
      split; [apply (create_lead_healthy msg_limit unavailable_msg d payload Hf)|].
      split; [apply collection_store_with|].
      split; [reflexivity|]. split; [reflexivity|].
      intros c Hc. apply collection_store_with_ne. congruence.
  - right. eexists. split; [reflexivity|]. by left.
Qed.


(** X10: an item whose quantity is falsy (0, 0.0 or -0.0) is billed
    exactly as if the quantity were missing (default 1), and a falsy unit
    price exactly as a missing one (default 0): replacing such values by
    the defaults in any list of items leaves subtotal, tax and total
    unchanged. *)
Theorem X10_falsy_fields_billed_as_defaults :
  forall items items' : list ProposalItem.t,
    Forall2
      (fun it it' =>
         (ProposalItem.quantity it' = ProposalItem.quantity it
          \/ (PyNum.truthy (ProposalItem.quantity it) = false
              /\ ProposalItem.quantity it' = PInt 1))
         /\ (ProposalItem.unit_price_kes it' = ProposalItem.unit_price_kes it
             \/ (PyNum.truthy (ProposalItem.unit_price_kes it) = false
                 /\ ProposalItem.unit_price_kes it' = PInt 0)))
      items items' ->
    proposal_totals items' = proposal_totals items.
Proof.
  intros items items' Hall. unfold proposal_totals.
  assert (Hmap :
            map (fun it =>
                   PyNum.mul (PyNum.or (ProposalItem.quantity it) (PInt 1))
                     (PyNum.or (ProposalItem.unit_price_kes it) (PInt 0)))
              items'
            = map (fun it =>
                     PyNum.mul (PyNum.or (ProposalItem.quantity it) (PInt 1))
                       (PyNum.or (ProposalItem.unit_price_kes it) (PInt 0)))
                items).
  { induction Hall as [|it it' items items' [Hq Hp] _ IH]; simpl; [reflexivity|].
    rewrite IH. f_equal. f_equal.
    - destruct Hq as [->|[Hf ->]]; [reflexivity|].
      unfold PyNum.or. rewrite Hf. reflexivity.
    - destruct Hp as [->|[Hf ->]]; [reflexivity|].
      unfold PyNum.or. rewrite Hf. reflexivity. }
  rewrite Hmap. reflexivity.
Qed.

Lemma PyFloat_falsy_is_zero (f : spec_float) :
  PyFloat.truthy f = false -> exists s, f = S754_zero s.
Proof.
  destruct f as [s|s| |s m e]; simpl; eauto; try destruct s; discriminate.
Qed.

Lemma PyNum_or_falsy (a b : pynum) :
  PyNum.truthy a = false -> PyNum.or a b = b.
Proof. intros H. unfold PyNum.or. by rewrite H. Qed.

(** The amount billed for an item without a price and with a finite
    quantity is a zero: the int [0] or a float zero. *)
Lemma free_item_term (q p : pynum) :
  PyNum.truthy p = false -> finite_num q = true ->
  let term := PyNum.mul (PyNum.or q (PInt 1)) (PyNum.or p (PInt 0)) in
  term = PInt 0 \/ exists s, term = PFloat (S754_zero s).
Proof.
  intros Hp Hq. rewrite (PyNum_or_falsy p _ Hp).
  destruct q as [z|f].
  - left. unfold PyNum.or. destruct (PyNum.truthy (PInt z)); simpl.
    + by rewrite Z.mul_0_r.
    + reflexivity.
  - destruct f as [s|s| |s m e]; try discriminate.
    + left. reflexivity.
    + right. exists s. by destruct s.
Qed.

Lemma sum_of_zeros (terms : list pynum) (acc : pynum) :
  Forall (fun t => t = PInt 0 \/ exists s, t = PFloat (S754_zero s)) terms ->
  acc = PInt 0 \/ acc = PFloat (S754_zero false) ->
  fold_left PyNum.add terms acc = PInt 0
  \/ fold_left PyNum.add terms acc = PFloat (S754_zero false).
Proof.
  intros Hall. revert acc.
  induction Hall as [|t terms Ht _ IH]; intros acc Hacc; simpl; [exact Hacc|].
  apply IH.
  destruct Hacc as [->| ->], Ht as [->|[s ->]];
    try destruct s; auto.
Qed.

(** X11: when no item has a price (every unit price is 0, 0.0, -0.0 or
    missing) and every quantity is a finite number, the subtotal is zero
    (the int 0 or the float 0.0) and tax and total are exactly 0.0; this
    covers the empty list of items. *)
Theorem X11_unpriced_items_total_zero :
  forall items : list ProposalItem.t,
    Forall (fun it =>
              PyNum.truthy (ProposalItem.unit_price_kes it) = false
              /\ finite_num (ProposalItem.quantity it) = true) items ->
    exists subtotal,
      proposal_totals items
      = (subtotal, PFloat (S754_zero false), PFloat (S754_zero false))
      /\ (subtotal = PInt 0 \/ subtotal = PFloat (S754_zero false)).
Proof.
  intros items Hall. unfold proposal_totals, PyNum.sum.
  set (terms := map _ items).
  assert (Hterms :
            Forall (fun t => t = PInt 0 \/ exists s, t = PFloat (S754_zero s))
              terms).
  { subst terms. induction Hall as [|it items [Hp Hq] _ IH]; simpl;
      constructor; auto.
    apply (free_item_term _ _ Hp Hq). }
  destruct (sum_of_zeros terms (PInt 0) Hterms (or_introl eq_refl)) as [-> | ->];
    eexists; (split; [reflexivity|]); auto.
Qed.

Lemma fmul_nan_r (x : spec_float) : PyFloat.fmul x S754_nan = S754_nan.
Proof. by destruct x. Qed.

Lemma fadd_nan_r (x : spec_float) : PyFloat.fadd x S754_nan = S754_nan.
Proof. by destruct x. Qed.

Lemma sum_from_nan (terms : list pynum) :
  fold_left PyNum.add terms (PFloat S754_nan) = PFloat S754_nan.
Proof. induction terms as [|t terms IH]; simpl; [reflexivity|]. exact IH. Qed.

Lemma sum_with_nan (terms : list pynum) (acc : pynum) :
  Exists (fun t => t = PFloat S754_nan) terms ->
  fold_left PyNum.add terms acc = PFloat S754_nan.
Proof.
  intros Hex. revert acc.
  induction Hex as [t terms ->|t terms _ IH]; intros acc; simpl.
  - replace (PyNum.add acc (PFloat S754_nan)) with (PFloat S754_nan).
    + apply sum_from_nan.
    + destruct acc; simpl; by rewrite fadd_nan_r.
  - apply IH.
Qed.

(** X12: a NaN anywhere poisons the whole computation: if some item has a
    NaN quantity or a NaN unit price, then subtotal, tax and total are all
    NaN, whatever the other items; on a store that answers, the draft is
    created all the same and the three NaN amounts are persisted. *)
Theorem X12_nan_item_poisons_totals :
  forall (msg_limit : nat) (unavailable_msg : string) (d : Store)
         (payload : ProposalDraftIn.t),
    Exists (fun it =>
              ProposalItem.quantity it = PFloat S754_nan
              \/ ProposalItem.unit_price_kes it = PFloat S754_nan)
      (ProposalDraftIn.items payload) ->
    healthy d ->
    proposal_totals (ProposalDraftIn.items payload)
    = (PFloat S754_nan, PFloat S754_nan, PFloat S754_nan)
    /\ exists doc,
         create_proposal_draft msg_limit unavailable_msg (Some d) payload
         = (Return
              [("id", VStr (pretty (next_id d)));
               ("status", VStr "draft_created");
               ("totals",
                VDict [("subtotal", VNum (PFloat S754_nan));
                       ("tax", VNum (PFloat S754_nan));
                       ("total", VNum (PFloat S754_nan))])]%string,
            Some (store_with d "proposal" doc))
         /\ Dict.get "subtotal_kes" doc = Some (VNum (PFloat S754_nan))
         /\ Dict.get "tax_kes" doc = Some (VNum (PFloat S754_nan))
         /\ Dict.get "total_kes" doc = Some (VNum (PFloat S754_nan)).
Proof.
  intros msg_limit unavailable_msg d payload Hex Hd.
  assert (Ht : proposal_totals (ProposalDraftIn.items payload)
               = (PFloat S754_nan, PFloat S754_nan, PFloat S754_nan)).
  { unfold proposal_totals, PyNum.sum.
    rewrite sum_with_nan; [reflexivity|].
    induction Hex as [it items [Hq|Hp]|it items _ IH]; simpl.
    - apply Exists_cons_hd. rewrite Hq. reflexivity.
    - apply Exists_cons_hd. rewrite Hp.
      change (PyNum.or (PFloat S754_nan) (PInt 0)) with (PFloat S754_nan).
      destruct (PyNum.or (ProposalItem.quantity it) (PInt 1));
        simpl; by rewrite fmul_nan_r.
    - by apply Exists_cons_tl. }
  split; [exact Ht|].
  pose proof (create_proposal_draft_healthy msg_limit unavailable_msg d payload Hd)
    as Hrun.
  rewrite Ht in Hrun.
  eexists. split; [exact Hrun|]. repeat split; reflexivity.
Qed.

Lemma doc_matches_tenant_iff (tenant_id : string) (doc : dict) :
  doc_matches [("tenant_id"%string, VStr tenant_id)] doc = true
  <-> Dict.get "tenant_id" doc = Some (VStr tenant_id).
Proof.
  split; [apply doc_matches_tenant|].
  unfold doc_matches; simpl. intros ->. simpl.
  by rewrite String.eqb_refl.
Qed.

Lemma doc_matches_other_tenant (t t' : string) (doc : dict) :
  Dict.get "tenant_id" doc = Some (VStr t) -> t' <> t ->
  doc_matches [("tenant_id"%string, VStr t')] doc = false.
Proof.
  intros Hget Hne. unfold doc_matches; simpl. rewrite Hget; simpl.
  destruct (String.eqb_spec t' t); [contradiction|reflexivity].
Qed.

Lemma filter_singleton {A : Type} (f : A -> bool) (x : A) :
  List.filter f [x] = if f x then [x] else [].
Proof. reflexivity. Qed.


(** A query on a store that answers. *)
Lemma get_documents_healthy (msg_limit : nat) (d : Store) (c : string)
    (filter_dict : dict) (limit : nat) :
  healthy d ->
  get_documents msg_limit (Some d) c filter_dict limit
  = Return (take limit (List.filter (doc_matches filter_dict) (collection d c))).
Proof. unfold healthy, get_documents. intros ->. reflexivity. Qed.

(** The same query after one more document was persisted. *)
Lemma get_documents_store_with (msg_limit : nat) (d : Store) (c c' : string)
    (doc filter_dict : dict) (limit : nat) :
  get_documents msg_limit (Some (store_with d c doc)) c' filter_dict limit
  = Return
      (take limit
         (List.filter (doc_matches filter_dict)
            (if String.eqb c c' then collection d c' ++ [doc]
             else collection d c'))).
Proof.
  rewrite get_documents_healthy by reflexivity.
  destruct (String.eqb_spec c c') as [<-|Hne].
  - by rewrite collection_store_with.
  - by rewrite collection_store_with_ne.
Qed.

Lemma list_leads_healthy (msg_limit : nat) (unavailable_msg : string)
    (d : Store) (tenant_id : string) :
  healthy d ->
  list_leads msg_limit unavailable_msg (Some d) tenant_id
  = Return (take 50 (List.filter
                       (doc_matches [("tenant_id"%string, VStr tenant_id)])
                       (collection d "lead"))).
Proof.
  intros Hd. unfold list_leads. by rewrite (get_documents_healthy _ _ _ _ _ Hd).
Qed.

Lemma list_proposals_healthy (msg_limit : nat) (unavailable_msg : string)
    (d : Store) (tenant_id : string) :
  healthy d ->
  list_proposals msg_limit unavailable_msg (Some d) tenant_id
  = Return (take 50 (List.filter
                       (doc_matches [("tenant_id"%string, VStr tenant_id)])
                       (collection d "proposal"))).
Proof.
  intros Hd. unfold list_proposals.
  by rewrite (get_documents_healthy _ _ _ _ _ Hd).
Qed.


(** X14: creating a lead for one tenant changes no other listing: after a
    successful [create_lead], [GET /leads] answers for every other tenant
    what it answered before, and [GET /proposals] answers for every tenant
    what it answered before. *)
Theorem X14_create_lead_leaves_other_listings :
  forall (msg_limit : nat) (unavailable_msg : string) (d : Store)
         (payload : LeadIn.t),
    healthy d ->
    exists (response : dict) (db' : option Store),
      create_lead msg_limit unavailable_msg (Some d) payload
      = (Return response, db')
      /\ (forall other,
             other <> LeadIn.tenant_id payload ->
             list_leads msg_limit unavailable_msg db' other
             = list_leads msg_limit unavailable_msg (Some d) other)
      /\ (forall tenant,
             list_proposals msg_limit unavailable_msg db' tenant
             = list_proposals msg_limit unavailable_msg (Some d) tenant).
Proof.
  intros msg_limit unavailable_msg d payload Hd.
  eexists _, _.
  split; [apply (create_lead_healthy msg_limit unavailable_msg d payload Hd)|].
  split.
  - intros other Hother.
    rewrite (list_leads_healthy _ _ _ _ Hd).
    unfold list_leads. rewrite get_documents_store_with.
    change (String.eqb "lead" "lead") with true. cbv iota.
    rewrite List.filter_app, filter_singleton.
    rewrite (doc_matches_other_tenant (LeadIn.tenant_id payload) other)
      by (reflexivity || assumption).
    by rewrite app_nil_r.
  - intros tenant.
    rewrite (list_proposals_healthy _ _ _ _ Hd).
    unfold list_proposals. rewrite get_documents_store_with. reflexivity.
Qed.


Lemma filter_sublist {A : Type} (f : A -> bool) (l : list A) :
  sublist (List.filter f l) l.
Proof.
  induction l as [|x l IH]; simpl; [constructor|].
  destruct (f x); by constructor.
Qed.

(** X16: on a store that answers, [GET /leads] and [GET /proposals] keep
    the store's order (the answer is a subsequence of the collection) and
    leave out a record of the requested tenant only when the answer is
    already full with 50 records. *)
Theorem X16_listing_complete_up_to_50 :
  forall (msg_limit : nat) (unavailable_msg : string) (d : Store)
         (tenant_id : string),
    healthy d ->
    (exists docs,
        list_leads msg_limit unavailable_msg (Some d) tenant_id = Return docs
        /\ sublist docs (collection d "lead")
        /\ forall doc,
             In doc (collection d "lead") ->
             Dict.get "tenant_id" doc = Some (VStr tenant_id) ->
             In doc docs \/ length docs = 50%nat)
    /\ (exists docs,
           list_proposals msg_limit unavailable_msg (Some d) tenant_id
           = Return docs
           /\ sublist docs (collection d "proposal")
           /\ forall doc,
                In doc (collection d "proposal") ->
                Dict.get "tenant_id" doc = Some (VStr tenant_id) ->
                In doc docs \/ length docs = 50%nat).
Proof.
  intros msg_limit unavailable_msg d tenant_id Hd.
  assert (Hgen : forall c,
             let docs :=
               take 50 (List.filter
                          (doc_matches [("tenant_id"%string, VStr tenant_id)])
                          (collection d c)) in
             sublist docs (collection d c)
             /\ forall doc,
                  In doc (collection d c) ->
                  Dict.get "tenant_id" doc = Some (VStr tenant_id) ->
                  In doc docs \/ length docs = 50%nat).
  { intros c docs. split.
    - subst docs. etransitivity; [apply sublist_take|apply filter_sublist].
    - intros doc Hin Hget. subst docs.
      set (l := List.filter _ (collection d c)).
      assert (Hl : In doc l).
      { apply List.filter_In. split; [exact Hin|].
        by apply doc_matches_tenant_iff. }
      destruct (decide (length l <= 50)%nat) as [Hle|Hgt].
      + left. by rewrite take_ge.
      + right. rewrite length_take. lia. }
  split.
  - eexists. split; [apply (list_leads_healthy _ _ _ _ Hd)|]. apply Hgen.
  - eexists. split; [apply (list_proposals_healthy _ _ _ _ Hd)|]. apply Hgen.
Qed.

(** X17: a listing raises nothing but HTTP 500, and only in two
    situations: there is no store handle, and the detail is the message of
    the adapter's "unavailable" error; or the store fails the read, and the
    detail is the adapter's cut of the engine's message. *)
Theorem X17_listing_errors :
  forall (msg_limit : nat) (unavailable_msg : string) (db : option Store)
         (tenant_id : string) (e : http_error),
    list_leads msg_limit unavailable_msg db tenant_id = Raise e
    \/ list_proposals msg_limit unavailable_msg db tenant_id = Raise e ->
    (db = None /\ e = HTTPException 500 unavailable_msg)
    \/ (exists d m,
           db = Some d /\ fault d = Some m
           /\ e = HTTPException 500 (str_slice_to msg_limit m)).
Proof.
  intros msg_limit unavailable_msg db tenant_id e H.
  unfold list_leads, list_proposals, get_documents in H.
  destruct db as [d|].
  - right. destruct (fault d) as [m|] eqn:Hf.
    + exists d, m. destruct H as [H|H]; injection H as <-; auto.
    + destruct H; discriminate.
  - left. destruct H as [H|H]; injection H as <-; auto.
Qed.

(** X18: every default that [schemas.py] gives to a [Literal] field
    belongs to the field's own set of allowed values (defaults are not
    validated when a record is built), no allowed set is empty or lists a
    value twice, and the values that the handlers force ("new" for a lead;
    "draft", "pending" and "pdf" for a proposal) are allowed by the [Lead]
    and [Proposal] schemas. *)
Theorem X18_literal_defaults_are_allowed :
  Forall (fun f =>
            lf_allowed f <> []
            /\ NoDup (lf_allowed f)
            /\ match lf_default f with
               | Some v => in_literal (lf_allowed f) v = true
               | None => True
               end)
    LITERAL_FIELDS
  /\ in_literal Lead.status_literal "new" = true
  /\ in_literal Proposal.status_literal "draft" = true
  /\ in_literal Proposal.ai_status_literal "pending" = true
  /\ in_literal Proposal.delivery_channel_literal "pdf" = true.
Proof.
  split; [|repeat split; reflexivity].
  unfold LITERAL_FIELDS.
  repeat (apply Forall_cons; split;
          [split; [discriminate|];
           split; [apply (bool_decide_unpack _); vm_compute; exact I
                  |simpl; try reflexivity; exact I]|]).
  apply Forall_nil_2.
Qed.

(* ===================================================================== *)
(** ** Concrete instances of the further properties *)
(* ===================================================================== *)


Lemma X2_test_database_connected_witness :
  list_collection_names two_tenant_store = Return ["lead"%string]
  /\ exists response,
       test_database environ_set (Some two_tenant_store) = Return response
       /\ Dict.get "connection_status" response = Some (VStr "Connected")
       /\ Dict.get "collections" response = Some (VList [VStr "lead"]).
Proof.
  assert (Hnames : list_collection_names two_tenant_store
                   = Return ["lead"%string]) by (vm_compute; reflexivity).
  split; [exact Hnames|].
  destruct (X2_test_database_connected environ_set two_tenant_store _ Hnames)
    as (response & Hrun & _ & Hstatus & Hcols & _).
  exists response. auto.
Defined.


Lemma X7_post_leads_rejects_invalid_field_witness :
  (In "tenant_id"%string ["tenant_id"; "source"]%string
   /\ LeadIn.required_str "tenant_id" [("source"%string, VStr "web")] = None)
  /\ exists fields,
       post_leads 80 "Database not available" (Some empty_store)
         (VDict [("source"%string, VStr "web")])
       = (Raise (RequestValidationError fields), Some empty_store)
       /\ In "tenant_id"%string fields.
Proof.
  assert (H : In "tenant_id"%string ["tenant_id"; "source"]%string
              /\ LeadIn.required_str "tenant_id" [("source"%string, VStr "web")]
                 = None)
    by (split; [simpl; tauto|reflexivity]).
  split; [exact H|].
  destruct (X7_post_leads_rejects_invalid_field 80 "Database not available"
              (Some empty_store) [("source"%string, VStr "web")] "tenant_id"
              (or_introl H))
    as (fields & Hrun & Hin & _).
  exists fields. auto.
Defined.

Lemma X10_falsy_fields_billed_as_defaults_witness :
  proposal_totals
    [ProposalItem.new None "Audit" None None (Some (PInt 100))]
  = proposal_totals
      [ProposalItem.new None "Audit" None (Some (PInt 0)) (Some (PInt 100))].
Proof.
  apply X10_falsy_fields_billed_as_defaults.
  constructor; [|constructor].
  split; [right; split; reflexivity | left; reflexivity].
Defined.

Lemma X11_unpriced_items_total_zero_witness :
  Forall (fun it =>
            PyNum.truthy (ProposalItem.unit_price_kes it) = false
            /\ finite_num (ProposalItem.quantity it) = true)
    [ProposalItem.new None "Sample" None (Some (PInt 3)) None;
     ProposalItem.new None "Gift" None None (Some (PInt 0))]
  /\ exists subtotal,
       proposal_totals
         [ProposalItem.new None "Sample" None (Some (PInt 3)) None;
          ProposalItem.new None "Gift" None None (Some (PInt 0))]
       = (subtotal, PFloat (S754_zero false), PFloat (S754_zero false)).
Proof.
  assert (H : Forall (fun it =>
                        PyNum.truthy (ProposalItem.unit_price_kes it) = false
                        /\ finite_num (ProposalItem.quantity it) = true)
                [ProposalItem.new None "Sample" None (Some (PInt 3)) None;
                 ProposalItem.new None "Gift" None None (Some (PInt 0))])
    by (repeat constructor).
  split; [exact H|].
  destruct (X11_unpriced_items_total_zero _ H) as (subtotal & Ht & _).
  exists subtotal. exact Ht.
Defined.

Lemma X12_nan_item_poisons_totals_witness :
  healthy empty_store
  /\ proposal_totals
       [ProposalItem.new None "Website" None (Some (PInt 2)) (Some (PInt 1000));
        ProposalItem.new None "Hosting" None (Some (PFloat S754_nan))
          (Some (PInt 500))]
     = (PFloat S754_nan, PFloat S754_nan, PFloat S754_nan).
Proof.
  split; [reflexivity|].
  refine (proj1 (X12_nan_item_poisons_totals 80 "Database not available"
                   empty_store
                   {| ProposalDraftIn.tenant_id := "t1";
                      ProposalDraftIn.lead_id := "l1";
                      ProposalDraftIn.items :=
                        [ProposalItem.new None "Website" None (Some (PInt 2))
                           (Some (PInt 1000));
                         ProposalItem.new None "Hosting" None
                           (Some (PFloat S754_nan)) (Some (PInt 500))] |}
                   _ eq_refl)).
  apply Exists_cons_tl, Exists_cons_hd. left. reflexivity.
Defined.


Lemma X14_create_lead_leaves_other_listings_witness :
  healthy two_tenant_store
  /\ exists (response : dict) (db' : option Store),
       create_lead 80 "Database not available" (Some two_tenant_store)
         sample_lead
       = (Return response, db')
       /\ list_leads 80 "Database not available" db' "t2"
          = list_leads 80 "Database not available" (Some two_tenant_store) "t2".
Proof.
  split; [reflexivity|].
  destruct (X14_create_lead_leaves_other_listings 80 "Database not available"
              two_tenant_store sample_lead eq_refl)
    as (response & db' & Hrun & Hother & _).
  exists response, db'. split; [exact Hrun|].
  apply Hother. discriminate.
Defined.


Lemma X16_listing_complete_up_to_50_witness :
  healthy two_tenant_store
  /\ exists docs,
       list_leads 80 "Database not available" (Some two_tenant_store) "t1"
       = Return docs
       /\ sublist docs (collection two_tenant_store "lead").
Proof.
  split; [reflexivity|].
  destruct (X16_listing_complete_up_to_50 80 "Database not available"
              two_tenant_store "t1" eq_refl)
    as [(docs & Hrun & Hsub & _) _].
  exists docs. auto.
Defined.

Lemma X17_listing_errors_witness :
  list_leads 80 "Database not available" None "t1"
  = Raise (HTTPException 500 "Database not available")
  /\ ((None = None :> option Store
       /\ HTTPException 500 "Database not available"
          = HTTPException 500 "Database not available")
      \/ exists d m,
           None = Some d /\ fault d = Some m
           /\ HTTPException 500 "Database not available"
              = HTTPException 500 (str_slice_to 80 m)).
Proof.
  split; [reflexivity|].
  exact (X17_listing_errors 80 "Database not available" None "t1" _
           (or_introl eq_refl)).
Defined.
